(** * Mappersmith: the client builder and its middleware invocation engine

    A shallow embedding of [src/client-builder.js] ([ClientBuilder], [build],
    [buildResource], [invokeMiddlewares]) and of the part of
    [src/mappersmith.js] it is wired to ([configs], [setContext]).

    Conventions of the embedding.
    - A JavaScript object used as a dictionary is a finite map from property
      names to values ([gmap string _]).  The client object that [build]
      returns is modelled with its own properties and its prototype link
      apart, since an assignment to [__proto__] sets the latter.
    - A promise-returning computation is a function of the world it runs in
      that yields an outcome (resolved or rejected) and the world it leaves.
      A synchronous [throw] inside a promise callback and a rejected promise
      are the same outcome, as they are for the caller of a generated
      method.
    - A nullary closure [() => e] is the suspended computation [e] itself. *)

From stdpp Require Import gmap strings list fin_maps pretty.

Local Open Scope string_scope.

(** ** JavaScript values and errors *)

Module Js.

(** A JavaScript value: the primitives whose truthiness the constructor
    inspects, and objects of a host type [O].  Numbers are the
    integer-valued ones and [NaN]. *)
Inductive value (O : Type) : Type :=
| Undefined
| Null
| Bool (b : bool)
| Num (z : Z)
| NaN
| Str (s : string)
| Obj (o : O).

Arguments Undefined {O}.
Arguments Null {O}.
Arguments Bool {O} b.
Arguments Num {O} z.
Arguments NaN {O}.
Arguments Str {O} s.
Arguments Obj {O} o.

(** [ToBoolean]: what [!v] negates. *)
Definition truthy {O} (v : value O) : bool :=
  match v with
  | Undefined | Null | NaN => false
  | Bool b => b
  | Num z => negb (Z.eqb z 0)
  | Str s => negb (String.eqb s "")
  | Obj _ => true
  end.

(** [ToString]: what a template literal splices in. *)
Definition toString {O} (v : value O) : string :=
  match v with
  | Undefined => "undefined"
  | Null => "null"
  | Bool true => "true"
  | Bool false => "false"
  | Num z => pretty z
  | NaN => "NaN"
  | Str s => s
  | Obj _ => "[object Object]"
  end.

(** The two error classes that occur: [new Error(message)] and the
    engine's [TypeError] for a call of something that is not callable. *)
Inductive error : Type :=
| Error (message : string)
| TypeError (message : string).

Definition message (e : error) : string :=
  match e with Error m | TypeError m => m end.

End Js.

(** ** The host types *)

(** What the builder takes from its collaborators: [Store] is the state that
    hooks and the gateway share through closures and globals; [Request] and
    [Response] are the value objects of [./request] and [./response], and
    [newRequest] is [new Request(descriptor, requestParams)];
    [ManifestObject] is a manifest definition, [ContextValue] a value kept in
    [configs.context]. *)
Class Host : Type := {
  Store : Type;
  Request : Type;
  Response : Type;
  GatewayConfigs : Type;
  Descriptor : Type;
  Params : Type;
  ManifestObject : Type;
  ContextValue : Type;
  newRequest : Descriptor -> Params -> Request
}.

(** ** Promises over an explicit world *)

Inductive Outcome (A : Type) : Type :=
| Resolved (a : A)
| Rejected (e : Js.error).

Arguments Resolved {A} a.
Arguments Rejected {A} e.

Section Engine.

Context `{Host}.

(** The world of one call: the shared store, the log that recording hooks
    append to, and the requests the gateway has been called with, in
    order. *)
Record World : Type := mkWorld {
  store : Store;
  log : list nat;
  calls : list Request
}.

(** A computation over the store alone: what a [request] hook and the
    gateway are. *)
Definition Async (A : Type) : Type := Store -> Outcome A * Store.

(** A computation over the whole world: what [next], [execute] and the
    result of [invokeMiddlewares] are. *)
Definition Promise (A : Type) : Type := World -> Outcome A * World.

(** [Promise.resolve(a)] *)
Definition resolve {A} (a : A) : Promise A := fun w => (Resolved a, w).

(** [Promise.reject(e)], or [throw e] inside a callback. *)
Definition reject {A} (e : Js.error) : Promise A := fun w => (Rejected e, w).

(** [p.then(f)]: [f] runs only when [p] resolves; a rejection skips it. *)
Definition then_ {A B} (p : Promise A) (f : A -> Promise B) : Promise B :=
  fun w =>
    match p w with
    | (Resolved a, w') => f a w'
    | (Rejected e, w') => (Rejected e, w')
    end.

(** Running a store computation inside the world. *)
Definition liftS {A} (c : Async A) : Promise A :=
  fun w =>
    let '(o, s) := c (store w) in
    (o, mkWorld s (log w) (calls w)).

(** ** Middleware instances *)

(** The [response] hook is written [(next, renew) => ...]; an argument the
    caller does not pass is [undefined], here [None]. *)
Definition ResponseHook : Type :=
  Promise Response -> option (Promise Response) -> Promise Response.

(** A middleware instance is an object with two optional slots: this is
    the object a middleware factory returns.  [invokeMiddlewares] takes its
    list from [manifest.createMiddleware], which fills the slots a factory
    left out (see [Manifest_createMiddleware] below); in the lists it
    receives from there both slots are present. *)
Record Middleware : Type := mkMiddleware {
  request : option (Request -> Async Request);
  response : option ResponseHook
}.

(** [middleware.request(request)]: calling an absent slot throws. *)
Definition callRequest (middleware : Middleware) (req : Request)
  : Promise Request :=
  match request middleware with
  | Some hook => liftS (hook req)
  | None => reject (Js.TypeError "middleware.request is not a function")
  end.

(** [middleware.response(next)]: one argument is passed, so the hook's
    second parameter is [undefined]. *)
Definition callResponse (middleware : Middleware) (next : Promise Response)
  : Promise Response :=
  match response middleware with
  | Some hook => hook next None
  | None => reject (Js.TypeError "middleware.response is not a function")
  end.

(** A gateway class: [new GatewayClass(request, gatewayConfigs).call()]. *)
Definition GatewayClass : Type := Request -> GatewayConfigs -> Async Response.

(** ** The manifest, as the builder consumes it *)

Record BindingContext : Type := mkBinding {
  resourceName : string;
  resourceMethod : string
}.

Record MethodDef : Type := mkMethod {
  name : string;
  descriptor : Descriptor
}.

(** The interface of a [Manifest] instance that the builder uses:
    [createMiddleware], [gatewayConfigs], and [eachResource] given by the
    (name, methods) pairs its callback is invoked with, in order.  These
    are the manifest's normal returns: what a manifest does when it fails
    on its own definition belongs to [./manifest]. *)
Record Manifest : Type := mkManifest {
  createMiddleware : BindingContext -> list Middleware;
  gatewayConfigs : GatewayConfigs;
  eachResource : list (string * list MethodDef)
}.

(** The fields [ClientBuilder] sets on [this] ([this.Promise] is the
    promise constructor, which the embedding fixes). *)
Record Builder : Type := mkBuilder {
  manifest : Manifest;
  GatewayClassFactory : unit -> Js.value GatewayClass
}.

(** ** [configs] and [setContext] *)

(** The process-wide [configs] object of [src/mappersmith.js] ([Promise] and
    [fetch], which only detect the environment, are left out). *)
Record Configs : Type := mkConfigs {
  context : gmap string ContextValue;
  middleware : list (BindingContext -> Middleware);
  maxMiddlewareStackExecutionAllowed : Z;
  gateway : Js.value GatewayClass;
  configsGatewayConfigs : GatewayConfigs
}.

(** Modelled from the spec: [assign] of [./utils] is not among the sources.
    The spec calls what [setContext] does with it a merge operation; it is
    taken as [Object.assign(target, source)]: the target with every key of
    the source written over it. *)
Definition assign {V} (target source : gmap string V) : gmap string V :=
  source ∪ target.

Definition setContext (ctx : gmap string ContextValue) (configs : Configs)
  : Configs :=
  mkConfigs (assign (context configs) ctx)
            (middleware configs)
            (maxMiddlewareStackExecutionAllowed configs)
            (gateway configs)
            (configsGatewayConfigs configs).

(** ** [ClientBuilder] *)

Section Constructor.

(** [new Manifest(manifest, configs)], from [./manifest]. *)
Variable newManifest : Js.value ManifestObject -> Configs -> Manifest.

(** The constructor: [inl e] when it throws [e], [inr this] otherwise.  An
    absent factory argument is [None]. *)
Definition ClientBuilder (manifest : Js.value ManifestObject)
    (GatewayClassFactory : option (unit -> Js.value GatewayClass))
    (configs : Configs) : Js.error + Builder :=
  if negb (Js.truthy manifest) then
    inl (Js.Error ("[Mappersmith] invalid manifest ("
                     ++ Js.toString manifest ++ ")"))
  else
    match GatewayClassFactory with
    | None =>
        inl (Js.Error "[Mappersmith] gateway class not configured (configs.gateway)")
    | Some factory =>
        if negb (Js.truthy (factory tt)) then
          inl (Js.Error "[Mappersmith] gateway class not configured (configs.gateway)")
        else
          inr (mkBuilder (newManifest manifest configs) factory)
    end.

End Constructor.

(** ** [invokeMiddlewares] *)

Definition chainRequestPhase (requestPromise : Promise Request)
    (middleware : Middleware) : Promise Request :=
  then_ (then_ requestPromise (fun req => callRequest middleware req))
        (fun req => resolve req).

Definition chainResponsePhase (next : Promise Response)
    (middleware : Middleware) : Promise Response :=
  callResponse middleware next.

(** [middleware.reduce(chainRequestPhase, Promise.resolve(initialRequest))] *)
Definition requestPhase (middleware : list Middleware)
    (initialRequest : Request) : Promise Request :=
  fold_left chainRequestPhase middleware (resolve initialRequest).

(** [() => new GatewayClass(finalRequest, gatewayConfigs).call()]; the call
    is entered in [calls].  [new] of a value that is not a class throws.
    That throw is synchronous, inside [next()]: a hook on the way that
    handled rejections of [next()] would not see it.  The embedding has one
    outcome for a throw and a rejection, and no hook that is given a
    meaning below handles either. *)
Definition callGateway (this : Builder) (finalRequest : Request)
  : Promise Response :=
  match GatewayClassFactory this tt with
  | Js.Obj gatewayClass =>
      fun w =>
        let '(o, s) :=
          gatewayClass finalRequest (gatewayConfigs (manifest this)) (store w) in
        (o, mkWorld s (log w) (calls w ++ [finalRequest]))
  | _ => reject (Js.TypeError "GatewayClass is not a constructor")
  end.

(** [middleware.reduce(chainResponsePhase, callGateway)] *)
Definition execute (this : Builder) (middleware : list Middleware)
    (finalRequest : Request) : Promise Response :=
  fold_left chainResponsePhase middleware (callGateway this finalRequest).

Definition invokeMiddlewares (this : Builder)
    (resourceName resourceMethod : string) (initialRequest : Request)
  : Promise Response :=
  let middleware :=
    createMiddleware (manifest this) (mkBinding resourceName resourceMethod) in
  then_ (requestPhase middleware initialRequest)
        (fun finalRequest =>
           then_ (execute this middleware finalRequest)
                 (fun response => resolve response)).

(** The sequential fold of a list of [request] hooks, each one given the
    request its predecessors produced: what the request phase amounts to
    when every slot is filled. *)
Fixpoint runRequestHooks (hooks : list (Request -> Async Request))
    (req : Request) (s : Store) : Outcome Request * Store :=
  match hooks with
  | [] => (Resolved req, s)
  | hook :: rest =>
      match hook req s with
      | (Resolved req', s') => runRequestHooks rest req' s'
      | (Rejected e, s') => (Rejected e, s')
      end
  end.

(** ** [build] and [buildResource] *)

(** A generated method: [(requestParams) => ...]. *)
Definition Method : Type := Params -> Promise Response.

(** What reading a property of the client object yields: the manifest
    under [_manifest], a resource, which is an object of generated methods,
    or a generated method, which the client can hold only through its
    prototype. *)
Inductive ClientProperty : Type :=
| ManifestRef (m : Manifest)
| Resource (methods : gmap string Method)
| MethodRef (f : Method).

Definition buildResource (this : Builder) (resourceName : string)
    (methods : list MethodDef) : gmap string Method :=
  fold_left
    (fun resource method =>
       assign resource
         {[ name method :=
              fun requestParams =>
                let request := newRequest (descriptor method) requestParams in
                invokeMiddlewares this resourceName (name method) request ]})
    methods ∅.

(** The client object: its own properties, and the object that an
    assignment to [__proto__] has made its prototype ([None] while the
    prototype is [Object.prototype], whose members are not modelled). *)
Record ClientObject : Type := mkClient {
  own : gmap string ClientProperty;
  prototype : option (gmap string Method)
}.

(** [client[name] = resource]: an own property, except for the name
    [__proto__], whose setter makes the resource the prototype and creates
    no property. *)
Definition setProperty (client : ClientObject) (name : string)
    (resource : gmap string Method) : ClientObject :=
  if decide (name = "__proto__") then
    mkClient (own client) (Some resource)
  else
    mkClient (<[ name := Resource resource ]> (own client)) (prototype client).

(** [client[name]]: the prototype itself for [__proto__], else the own
    property, else the property of the prototype. *)
Definition getProperty (client : ClientObject) (name : string)
  : option ClientProperty :=
  if decide (name = "__proto__") then
    Resource <$> prototype client
  else
    match own client !! name with
    | Some v => Some v
    | None => prototype client ≫= fun resource => MethodRef <$> resource !! name
    end.

#[global] Instance client_lookup : Lookup string ClientProperty ClientObject :=
  fun name client => getProperty client name.

Definition build (this : Builder) : ClientObject :=
  fold_left
    (fun client '(name, methods) =>
       setProperty client name (buildResource this name methods))
    (eachResource (manifest this))
    (mkClient {[ "_manifest" := ManifestRef (manifest this) ]} None).

(** ** Hooks that the specification's properties are about *)

(** Appending an index to the shared log. *)
Definition record (i : nat) : Promise unit :=
  fun w => (Resolved tt, mkWorld (store w) (log w ++ [i]) (calls w)).

(** [(next) => { log.push(i); return next() }] *)
Definition recordThenNext (i : nat) : ResponseHook :=
  fun next _ => then_ (record i) (fun _ => next).

(** [(request) => request] *)
Definition sameRequest : Request -> Async Request :=
  fun req s => (Resolved req, s).

(** [(next) => next()] *)
Definition justNext : ResponseHook := fun next _ => next.

(** A middleware whose [response] hook returns what [next()] returns, as
    [(next) => next()] does. *)
Definition forwards (m : Middleware) : Prop :=
  exists hook, response m = Some hook /\
               forall next w, hook next None w = next w.

(** Calling the hook's second parameter, [renew()]. *)
Definition callRenew (renew : option (Promise Response)) : Promise Response :=
  match renew with
  | Some k => k
  | None => reject (Js.TypeError "renew is not a function")
  end.

(** [(next) => next().then((response) => post(response))] *)
Definition afterNext (post : Response -> Async Response) : ResponseHook :=
  fun next _ => then_ next (fun r => liftS (post r)).

(** The sequential fold of a list of response transformations. *)
Fixpoint runAfterHooks (posts : list (Response -> Async Response))
    (r : Response) (s : Store) : Outcome Response * Store :=
  match posts with
  | [] => (Resolved r, s)
  | post :: rest =>
      match post r s with
      | (Resolved r', s') => runAfterHooks rest r' s'
      | (Rejected e, s') => (Rejected e, s')
      end
  end.

(** [(next) => next().then(() => next())] *)
Definition nextTwice : ResponseHook :=
  fun next _ => then_ next (fun _ => next).

(** A middleware that is [{ request: (request) => request,
    response: (next) => next() }]. *)
Definition transparent (m : Middleware) : Prop :=
  request m = Some sameRequest /\ response m = Some justNext.

(** A builder with the middleware list replaced, as the tests do with
    [manifest.middleware = [...]]. *)
Definition withMiddleware (this : Builder) (mws : list Middleware) : Builder :=
  mkBuilder
    (mkManifest (fun _ => mws)
                (gatewayConfigs (manifest this))
                (eachResource (manifest this)))
    (GatewayClassFactory this).

(** ** The manifest's [createMiddleware] *)

(** The argument a middleware factory is called with. *)
Record MiddlewareContext : Type := mkMiddlewareContext {
  contextResourceName : string;
  contextResourceMethod : string;
  contextValues : gmap string ContextValue;
  clientId : option string
}.

(** A middleware factory; a factory that returns nothing at all returns
    the instance with both slots absent. *)
Definition MiddlewareFactory : Type := MiddlewareContext -> Middleware.

(** The instance over the default hooks: an absent [request] is the
    identity, an absent [response] is [(next) => next()]. *)
Definition withDefaultHooks (instance : Middleware) : Middleware :=
  mkMiddleware
    (Some match request instance with
          | Some hook => hook
          | None => sameRequest
          end)
    (Some match response instance with
          | Some hook => hook
          | None => justNext
          end).

(** Modelled from the spec: [createMiddleware] of [./manifest] is not among
    the sources.  The spec has every instance produced by calling a
    middleware factory with the context [{ resourceName, resourceMethod,
    context, clientId }], in the order of the list, lets an instance define
    either hook, both or neither, and has an absent hook count as the
    identity on the request and as a direct pass-through to [next]; the
    tests call the client with factories that return nothing.  So the list
    is the factories' instances, each over the two default hooks. *)
Definition Manifest_createMiddleware (factories : list MiddlewareFactory)
    (values : gmap string ContextValue) (id : option string)
    (binding : BindingContext) : list Middleware :=
  map (fun factory : MiddlewareFactory =>
         withDefaultHooks
           (factory (mkMiddlewareContext (resourceName binding)
                       (resourceMethod binding) values id)))
      factories.

(** The [request] hook that runs for a factory's instance. *)
Definition requestHookOf (instance : Middleware) : Request -> Async Request :=
  match request instance with
  | Some hook => hook
  | None => sameRequest
  end.

End Engine.

(** ** A concrete host, for running the code on inputs *)

(** The store is a counter, requests and responses are strings. *)
Definition demoHost : Host :=
  {| Store := nat;
     Request := string;
     Response := string;
     GatewayConfigs := unit;
     Descriptor := string;
     Params := string;
     ManifestObject := unit;
     ContextValue := string;
     newRequest := fun d p => d ++ "?" ++ p |}.

Section Demo.

#[local] Existing Instance demoHost.

Definition w0 : World := mkWorld 0 [] [].

(** A gateway that always answers. *)
Definition echoGateway : GatewayClass :=
  fun req _ s => (Resolved ("200 " ++ req), s).

(** A gateway that always fails. *)
Definition downGateway : GatewayClass :=
  fun req _ s => (Rejected (Js.Error "network down"), s).

Definition demoManifest (resources : list (string * list MethodDef))
    (mws : list Middleware) : Manifest :=
  mkManifest (fun _ => mws) tt resources.

Definition userResource : list (string * list MethodDef) :=
  [("User", [mkMethod "byId" "/users/{id}"; mkMethod "all" "/users"])].

Definition demoBuilder (mws : list Middleware) : Builder :=
  mkBuilder (demoManifest userResource mws) (fun _ => Js.Obj echoGateway).

Definition downBuilder (mws : list Middleware) : Builder :=
  mkBuilder (demoManifest userResource mws) (fun _ => Js.Obj downGateway).

(** [() => ({})] *)
Definition noHooks : Middleware := mkMiddleware None None.

(** [() => ({ request: (request) => request })] *)
Definition onlyRequest : Middleware := mkMiddleware (Some sameRequest) None.

(** [() => ({ response: (next) => next() })] *)
Definition onlyResponse : Middleware := mkMiddleware None (Some justNext).

(** A middleware with both hooks whose [response] records [i]. *)
Definition recorder (i : nat) : Middleware :=
  mkMiddleware (Some sameRequest) (Some (recordThenNext i)).

(** [() => ({ request: (request) => request, response: (next) => next() })] *)
Definition bothHooks : Middleware :=
  mkMiddleware (Some sameRequest) (Some justNext).

(** [request: () => { throw new Error('denied') }] *)
Definition failingRequest : Middleware :=
  mkMiddleware (Some (fun _ s => (Rejected (Js.Error "denied"), s)))
               (Some justNext).

(** [response: () => Promise.reject(new Error('refused'))] *)
Definition failingResponse : Middleware :=
  mkMiddleware (Some sameRequest)
               (Some (fun _ _ => reject (Js.Error "refused"))).

(** [request: (request) => { count++; return request + '+' }] *)
Definition countingRequest : Middleware :=
  mkMiddleware (Some (fun req s => (Resolved (req ++ "+"), S s)))
               (Some justNext).

(** [response: (next, renew) => { executionCount++;
                                  return executionCount < n ? renew() : next() }],
    with the identity as [request]. *)
Definition renewUntil (n : nat) : Middleware :=
  mkMiddleware
    (Some sameRequest)
    (Some (fun next renew =>
             then_ (liftS (fun s => (Resolved (S s), S s)))
                   (fun executionCount =>
                      if Nat.ltb executionCount n then callRenew renew else next))).

Definition demoConfigs : Configs :=
  mkConfigs ∅ [] 2 (Js.Obj echoGateway) tt.

Definition demoNewManifest : Js.value ManifestObject -> Configs -> Manifest :=
  fun _ configs => demoManifest userResource [].

(** [(response) => response + suffix] *)
Definition appendPost (suffix : string) : Response -> Async Response :=
  fun r s => (Resolved (r ++ suffix), s).

Definition postMiddleware (suffix : string) : Middleware :=
  mkMiddleware (Some sameRequest) (Some (afterNext (appendPost suffix))).

Definition twiceMiddleware : Middleware :=
  mkMiddleware (Some sameRequest) (Some nextTwice).

(** [response: () => Promise.resolve('cached')] *)
Definition cachedBody : Async Response := fun s => (Resolved "cached", s).

Definition cachedMiddleware : Middleware :=
  mkMiddleware (Some sameRequest) (Some (fun _ _ => liftS cachedBody)).

(** A builder whose factory yields [null], as after [configs.gateway = null]. *)
Definition unsetBuilder (mws : list Middleware) : Builder :=
  mkBuilder (demoManifest userResource mws) (fun _ => Js.Null).

(** [() => ({ response: () => Promise.resolve('cached') })] *)
Definition cachedOnly : Middleware :=
  mkMiddleware None (Some (fun _ _ => liftS cachedBody)).

(** A builder whose manifest creates its middleware from factories. *)
Definition factoryBuilder (factories : list MiddlewareFactory) : Builder :=
  mkBuilder
    (mkManifest (Manifest_createMiddleware factories ∅ None) tt userResource)
    (fun _ => Js.Obj echoGateway).

(** A manifest with a resource named [__proto__]. *)
Definition protoBuilder : Builder :=
  mkBuilder
    (demoManifest [("__proto__", [mkMethod "byId" "/users/{id}"]);
                   ("User", [mkMethod "all" "/users"])] [])
    (fun _ => Js.Obj echoGateway).

(** A manifest with a resource named [_manifest]. *)
Definition shadowBuilder : Builder :=
  mkBuilder (demoManifest [("_manifest", [mkMethod "get" "/m"])] [])
            (fun _ => Js.Obj echoGateway).

End Demo.

(** * Properties of the engine *)

Section EngineFacts.

Context `{Host}.

Local Open Scope list_scope.

(** ** Membership in a list extended at its end *)

Lemma elem_of_snoc_here {A} (l : list A) (x : A) : x ∈ l ++ [x].
Proof. apply elem_of_app. right. apply list_elem_of_singleton. reflexivity. Qed.

Lemma elem_of_snoc_further {A} (l : list A) (x y : A) : x ∈ l -> x ∈ l ++ [y].
Proof. intros Hin. apply elem_of_app. left. exact Hin. Qed.

(** ** Promise laws *)

Lemma then_resolve_run {A} (p : Promise A) (w : World) :
  then_ p (fun a => resolve a) w = p w.
Proof.
  unfold then_, resolve. destruct (p w) as [[a | e] w']; reflexivity.
Qed.

Lemma liftS_frame {A} (c : Async A) (w w' : World) (o : Outcome A) :
  liftS c w = (o, w') -> log w' = log w /\ calls w' = calls w.
Proof.
  unfold liftS. destruct (c (store w)) as [o' s]. intros [= _ <-]. auto.
Qed.

(** ** The request phase *)

Lemma chainRequestPhase_run (p : Promise Request) (m : Middleware) (w : World) :
  chainRequestPhase p m w =
    match p w with
    | (Resolved r, w') => callRequest m r w'
    | (Rejected e, w') => (Rejected e, w')
    end.
Proof.
  unfold chainRequestPhase. rewrite then_resolve_run. reflexivity.
Qed.

Lemma requestPhase_snoc (l : list Middleware) (m : Middleware)
    (req : Request) (w : World) :
  requestPhase (l ++ [m]) req w =
    match requestPhase l req w with
    | (Resolved r, w') => callRequest m r w'
    | (Rejected e, w') => (Rejected e, w')
    end.
Proof.
  unfold requestPhase. rewrite fold_left_app. simpl.
  apply chainRequestPhase_run.
Qed.

(** Once the working promise is rejected, no later [request] hook runs. *)
Lemma chainRequestPhase_rejected (l : list Middleware) (p : Promise Request)
    (w w' : World) (e : Js.error) :
  p w = (Rejected e, w') ->
  fold_left chainRequestPhase l p w = (Rejected e, w').
Proof.
  revert p. induction l as [| m l IH]; intros p Hp; simpl.
  - exact Hp.
  - apply IH. rewrite chainRequestPhase_run, Hp. reflexivity.
Qed.

Lemma requestPhase_app_rejected (l1 l2 : list Middleware) (req : Request)
    (w w' : World) (e : Js.error) :
  requestPhase l1 req w = (Rejected e, w') ->
  requestPhase (l1 ++ l2) req w = (Rejected e, w').
Proof.
  unfold requestPhase. rewrite fold_left_app.
  apply chainRequestPhase_rejected.
Qed.

Lemma callRequest_frame (m : Middleware) (r : Request) (w w' : World)
    (o : Outcome Request) :
  callRequest m r w = (o, w') -> log w' = log w /\ calls w' = calls w.
Proof.
  unfold callRequest. destruct (request m) as [hook |].
  - apply liftS_frame.
  - unfold reject. intros [= _ <-]. auto.
Qed.

(** The request phase neither records nor calls the gateway. *)
Lemma requestPhase_frame (l : list Middleware) (req : Request) (w w' : World)
    (o : Outcome Request) :
  requestPhase l req w = (o, w') -> log w' = log w /\ calls w' = calls w.
Proof.
  revert o w'. induction l as [| m l IH] using rev_ind; intros o w'.
  - unfold requestPhase, resolve; simpl. intros [= _ <-]. auto.
  - rewrite requestPhase_snoc.
    destruct (requestPhase l req w) as [[r | e] w1] eqn:E.
    + destruct (IH _ _ eq_refl) as [Hl Hc]. intros Hm.
      apply callRequest_frame in Hm as [Hl' Hc']. split; congruence.
    + intros [= _ <-]. exact (IH _ _ eq_refl).
Qed.

Lemma fold_chainRequestPhase_hooks (mws : list Middleware)
    (hooks : list (Request -> Async Request)) (p : Promise Request) (w : World) :
  Forall2 (fun m h => request m = Some h) mws hooks ->
  fold_left chainRequestPhase mws p w =
    match p w with
    | (Resolved r, w') => liftS (runRequestHooks hooks r) w'
    | (Rejected e, w') => (Rejected e, w')
    end.
Proof.
  intros Hall. revert p w.
  induction Hall as [| m h mws hooks Hm _ IH]; intros p w; simpl.
  - unfold liftS; simpl. destruct (p w) as [[r | e] [s l c]]; reflexivity.
  - rewrite IH, chainRequestPhase_run.
    destruct (p w) as [[r | e] w1]; [| reflexivity].
    unfold callRequest, liftS. rewrite Hm. simpl.
    destruct (h r (store w1)) as [[r' | e'] s']; simpl; reflexivity.
Qed.

(** With every [request] slot filled, the phase is the fold of the hooks. *)
Lemma requestPhase_hooks (mws : list Middleware)
    (hooks : list (Request -> Async Request)) (req : Request) (w : World) :
  Forall2 (fun m h => request m = Some h) mws hooks ->
  requestPhase mws req w = liftS (runRequestHooks hooks req) w.
Proof.
  intros Hall. unfold requestPhase.
  rewrite (fold_chainRequestPhase_hooks _ _ _ _ Hall). reflexivity.
Qed.

(** ** The response phase *)

Lemma execute_nil (this : Builder) (fr : Request) :
  execute this [] fr = callGateway this fr.
Proof. reflexivity. Qed.

Lemma execute_snoc (this : Builder) (l : list Middleware) (m : Middleware)
    (fr : Request) :
  execute this (l ++ [m]) fr = callResponse m (execute this l fr).
Proof.
  unfold execute. rewrite fold_left_app. reflexivity.
Qed.

Lemma execute_take_S (this : Builder) (mws : list Middleware) (i : nat)
    (m : Middleware) (fr : Request) :
  mws !! i = Some m ->
  execute this (take (S i) mws) fr = callResponse m (execute this (take i mws) fr).
Proof.
  intros Hm. rewrite (take_S_r _ _ _ Hm). apply execute_snoc.
Qed.

Lemma callGateway_log (this : Builder) (fr : Request) (w w' : World)
    (o : Outcome Response) :
  callGateway this fr w = (o, w') -> log w' = log w.
Proof.
  unfold callGateway.
  destruct (GatewayClassFactory this tt) as [| | b | z | | s | cls];
    try (unfold reject; intros [= _ <-]; reflexivity).
  destruct (cls fr (gatewayConfigs (manifest this)) (store w)) as [o' s'].
  intros [= _ <-]. reflexivity.
Qed.

(** Forwarding middleware add nothing around the continuation they wrap. *)
Lemma execute_app_forwarding (this : Builder) (l1 l2 : list Middleware)
    (fr : Request) (w : World) :
  (forall m, m ∈ l2 -> forwards m) ->
  execute this (l1 ++ l2) fr w = execute this l1 fr w.
Proof.
  revert w. induction l2 as [| m l IH] using rev_ind; intros w Hall.
  - rewrite app_nil_r. reflexivity.
  - rewrite app_assoc, execute_snoc. unfold callResponse.
    destruct (Hall m) as (hook & -> & Hfw); [apply elem_of_snoc_here |].
    rewrite Hfw. apply IH. intros m' Hin. apply Hall.
    apply elem_of_snoc_further. exact Hin.
Qed.

(** Recording hooks: the last middleware records first, the first one
    last, and then the gateway is called. *)
Lemma execute_recorders (this : Builder) (mws : list Middleware)
    (fr : Request) :
  (forall i m, mws !! i = Some m -> response m = Some (recordThenNext i)) ->
  forall w,
    execute this mws fr w =
      callGateway this fr
        (mkWorld (store w) (log w ++ rev (seq 0 (length mws))) (calls w)).
Proof.
  induction mws as [| m l IH] using rev_ind; intros Hall w.
  - simpl. rewrite app_nil_r. destruct w; reflexivity.
  - rewrite execute_snoc. unfold callResponse.
    rewrite (Hall (length l) m)
      by (rewrite lookup_app_r, Nat.sub_diag by lia; reflexivity).
    unfold recordThenNext, then_, record.
    rewrite IH.
    + simpl. rewrite length_app. simpl.
      rewrite Nat.add_1_r, seq_S, rev_app_distr, <- app_assoc. reflexivity.
    + intros i m' Hi. apply Hall. rewrite lookup_app_l; [exact Hi |].
      eapply lookup_lt_Some, Hi.
Qed.

(** ** [invokeMiddlewares] *)

Lemma invokeMiddlewares_run (this : Builder) (rn rm : string) (req : Request)
    (w : World) :
  invokeMiddlewares this rn rm req w =
    match requestPhase (createMiddleware (manifest this) (mkBinding rn rm)) req w with
    | (Resolved fr, w1) =>
        execute this (createMiddleware (manifest this) (mkBinding rn rm)) fr w1
    | (Rejected e, w1) => (Rejected e, w1)
    end.
Proof.
  unfold invokeMiddlewares. cbv zeta. unfold then_ at 1.
  destruct (requestPhase _ req w) as [[fr | e] w1]; [| reflexivity].
  apply then_resolve_run.
Qed.

(** With no middleware at all the call is the gateway call on the initial
    request: it is made once and its outcome is the outcome of the call. *)
Lemma invokeMiddlewares_no_middleware (this : Builder) (rn rm : string)
    (req : Request) (w : World) :
  createMiddleware (manifest this) (mkBinding rn rm) = [] ->
  invokeMiddlewares this rn rm req w = callGateway this req w.
Proof.
  intros Hnil. rewrite invokeMiddlewares_run, Hnil. reflexivity.
Qed.

(** A [response] hook of the last middleware that settles without [next]
    keeps the gateway out: the call is the hook's own computation. *)
Lemma invokeMiddlewares_without_next (this : Builder) (rn rm : string)
    (req fr : Request) (w w1 : World) (l : list Middleware) (m : Middleware)
    (body : Async Response) :
  createMiddleware (manifest this) (mkBinding rn rm) = l ++ [m] ->
  response m = Some (fun _ _ => liftS body) ->
  requestPhase (l ++ [m]) req w = (Resolved fr, w1) ->
  invokeMiddlewares this rn rm req w = liftS body w1
  /\ calls (snd (invokeMiddlewares this rn rm req w)) = calls w.
Proof.
  intros Hmws Hresp Hreq.
  assert (Hrun : invokeMiddlewares this rn rm req w = liftS body w1).
  { rewrite invokeMiddlewares_run, Hmws, Hreq, execute_snoc.
    unfold callResponse. rewrite Hresp. reflexivity. }
  split; [exact Hrun |].
  rewrite Hrun. destruct (liftS body w1) as [o w2] eqn:E. simpl.
  apply liftS_frame in E as [_ Hc2].
  apply requestPhase_frame in Hreq as [_ Hc1]. congruence.
Qed.

(** ** Order of the response hooks *)

(** C1 (as amended).  When every middleware of the list has a [response]
    hook that records its index and then calls [next()], and the request
    phase resolves, the hooks run from the last middleware to the first:
    the last one is the outermost wrapper, middleware 0 wraps the gateway
    call, which runs after all of them; the log grows by
    [N-1, ..., 1, 0]. *)
Theorem response_hooks_run_last_to_first (this : Builder) (rn rm : string)
    (req fr : Request) (w w1 : World) :
  let mws := createMiddleware (manifest this) (mkBinding rn rm) in
  (forall i m, mws !! i = Some m -> response m = Some (recordThenNext i)) ->
  requestPhase mws req w = (Resolved fr, w1) ->
  invokeMiddlewares this rn rm req w =
    callGateway this fr
      (mkWorld (store w1) (log w ++ rev (seq 0 (length mws))) (calls w))
  /\ log (snd (invokeMiddlewares this rn rm req w)) =
       log w ++ rev (seq 0 (length mws)).
Proof.
  intros mws Hrec Hreq.
  assert (Hrun : invokeMiddlewares this rn rm req w =
                   callGateway this fr
                     (mkWorld (store w1) (log w ++ rev (seq 0 (length mws)))
                        (calls w))).
  { rewrite invokeMiddlewares_run. fold mws. rewrite Hreq.
    rewrite (execute_recorders this mws fr Hrec).
    destruct (requestPhase_frame _ _ _ _ _ Hreq) as [-> ->]. reflexivity. }
  split; [exact Hrun |].
  rewrite Hrun.
  destruct (callGateway this fr _) as [o w2] eqn:E.
  apply callGateway_log in E. exact E.
Qed.

(** ** Propagation of failures *)

(** C7.  The executor installs no handler of its own.  A [request] hook that
    rejects makes the call reject with that error in the world the hook
    left: no later hook ran and the gateway was not called.  A rejection of
    the outermost continuation is the rejection of the call.  What a
    [response] hook is handed as [next] is the continuation of the
    middleware before it, and for the first middleware the gateway call, so
    their rejections are what [next()] rejects with; when the middleware
    from index [i] on only forward, a rejection of the continuation below
    them (the gateway call for [i = 0], the hook of middleware [i - 1]
    otherwise) is the rejection of the call.  And the call rejects in no
    other way. *)
Theorem rejection_propagates (this : Builder) (rn rm : string) (req : Request)
    (w : World) :
  let mws := createMiddleware (manifest this) (mkBinding rn rm) in
  (forall i m r wi e w',
      mws !! i = Some m ->
      requestPhase (take i mws) req w = (Resolved r, wi) ->
      callRequest m r wi = (Rejected e, w') ->
      invokeMiddlewares this rn rm req w = (Rejected e, w')
      /\ calls w' = calls w /\ log w' = log w)
  /\ (forall fr w1 e w2,
        requestPhase mws req w = (Resolved fr, w1) ->
        execute this mws fr w1 = (Rejected e, w2) ->
        invokeMiddlewares this rn rm req w = (Rejected e, w2))
  /\ (forall i m hook fr,
        mws !! i = Some m ->
        response m = Some hook ->
        execute this (take (S i) mws) fr
          = hook (execute this (take i mws) fr) None)
  /\ (forall fr, execute this (take 0 mws) fr = callGateway this fr)
  /\ (forall i fr w1 e w2,
        (forall m, m ∈ drop i mws -> forwards m) ->
        requestPhase mws req w = (Resolved fr, w1) ->
        execute this (take i mws) fr w1 = (Rejected e, w2) ->
        invokeMiddlewares this rn rm req w = (Rejected e, w2))
  /\ (forall e w',
        invokeMiddlewares this rn rm req w = (Rejected e, w') ->
        requestPhase mws req w = (Rejected e, w')
        \/ exists fr w1, requestPhase mws req w = (Resolved fr, w1)
                         /\ execute this mws fr w1 = (Rejected e, w')).
Proof.
  intros mws. repeat split.
  - rewrite invokeMiddlewares_run. fold mws.
    rewrite <- (take_drop_middle mws i m) by assumption.
    replace (take i mws ++ m :: drop (S i) mws)
      with ((take i mws ++ [m]) ++ drop (S i) mws)
      by (rewrite <- app_assoc; reflexivity).
    erewrite requestPhase_app_rejected; [reflexivity |].
    rewrite requestPhase_snoc.
    match goal with Hp : requestPhase _ _ _ = _ |- _ => rewrite Hp end.
    assumption.
  - match goal with
    | Hp : requestPhase _ _ _ = _, Hc : callRequest _ _ _ = _ |- _ =>
        apply requestPhase_frame in Hp as [_ Hc1];
        apply callRequest_frame in Hc as [_ Hc2]; congruence
    end.
  - match goal with
    | Hp : requestPhase _ _ _ = _, Hc : callRequest _ _ _ = _ |- _ =>
        apply requestPhase_frame in Hp as [Hl1 _];
        apply callRequest_frame in Hc as [Hl2 _]; congruence
    end.
  - intros fr w1 e w2 Hreq Hex.
    rewrite invokeMiddlewares_run. fold mws. rewrite Hreq. exact Hex.
  - intros i m hook fr Hm Hh.
    rewrite (execute_take_S _ _ _ _ _ Hm). unfold callResponse.
    rewrite Hh. reflexivity.
  - intros i fr w1 e w2 Hfw Hreq Hinner.
    rewrite invokeMiddlewares_run. fold mws. rewrite Hreq.
    rewrite <- (take_drop i mws) at 1.
    rewrite execute_app_forwarding by exact Hfw. exact Hinner.
  - intros e w'. rewrite invokeMiddlewares_run. fold mws.
    destruct (requestPhase mws req w) as [[fr | e1] w1].
    + intros Hex. right. exists fr, w1. split; [reflexivity | exact Hex].
    + intros [= <- <-]. left. reflexivity.
Qed.

(** ** Construction *)

(** C8.  The constructor throws in exactly two cases.  A falsy manifest
    gives the message [invalid manifest (<value>)] with the value spliced
    in; otherwise an absent factory, or one that returns a falsy class,
    gives [gateway class not configured]; both carry the library's
    [[Mappersmith]] tag, the second also names [configs.gateway].  In every
    other case the builder is returned. *)
Theorem ClientBuilder_throws_exactly
    (newManifest : Js.value ManifestObject -> Configs -> Manifest)
    (manifest : Js.value ManifestObject)
    (factory : option (unit -> Js.value GatewayClass)) (configs : Configs) :
  let gatewayMissing :=
    match factory with
    | None => true
    | Some f => negb (Js.truthy (f tt))
    end in
  let result := ClientBuilder newManifest manifest factory configs in
  (Js.truthy manifest = false ->
     result = inl (Js.Error ("[Mappersmith] " ++ "invalid manifest ("
                               ++ Js.toString manifest ++ ")")%string))
  /\ (Js.truthy manifest = true -> gatewayMissing = true ->
        result = inl (Js.Error ("[Mappersmith] " ++ "gateway class not configured"
                                  ++ " (configs.gateway)")%string))
  /\ ((exists e, result = inl e)
        <-> Js.truthy manifest = false \/ gatewayMissing = true)
  /\ (forall f, Js.truthy manifest = true -> factory = Some f ->
        Js.truthy (f tt) = true ->
        result = inr (mkBuilder (newManifest manifest configs) f)).
Proof.
  intros gatewayMissing result. subst gatewayMissing result.
  unfold ClientBuilder.
  destruct (Js.truthy manifest) eqn:Hm; simpl;
    [destruct factory as [f |]; simpl;
       [destruct (Js.truthy (f tt)) eqn:Hf; simpl |] |];
    (split; [| split; [| split; [split |]]]);
    intros;
    repeat match goal with
           | Hx : exists _, _ |- _ => destruct Hx
           | Hx : _ \/ _ |- _ => destruct Hx
           end;
    try discriminate; try reflexivity; try congruence; eauto.
Qed.

(** ** The shared context *)

(** C9.  [setContext] merges: afterwards [configs.context] has every key of
    the argument with the argument's value, keeps every key the argument
    does not mention, and nothing else of [configs] changes. *)
Theorem setContext_merges (ctx : gmap string ContextValue) (configs : Configs) :
  (forall k v, ctx !! k = Some v ->
     context (setContext ctx configs) !! k = Some v)
  /\ (forall k, ctx !! k = None ->
        context (setContext ctx configs) !! k = context configs !! k)
  /\ dom (context (setContext ctx configs)) = dom ctx ∪ dom (context configs)
  /\ middleware (setContext ctx configs) = middleware configs
  /\ maxMiddlewareStackExecutionAllowed (setContext ctx configs)
       = maxMiddlewareStackExecutionAllowed configs
  /\ gateway (setContext ctx configs) = gateway configs
  /\ configsGatewayConfigs (setContext ctx configs)
       = configsGatewayConfigs configs.
Proof.
  unfold setContext, assign; simpl. repeat split.
  - intros k v Hk. apply lookup_union_Some_l. exact Hk.
  - intros k Hk. apply lookup_union_r. exact Hk.
  - apply dom_union_L.
Qed.

(** ** The client object *)

Lemma buildResource_fold_lookup (this : Builder) (rn : string)
    (methods : list MethodDef) (init : gmap string Method) (k : string) :
  let step := fun (resource : gmap string Method) (method : MethodDef) =>
    assign resource
      {[ name method :=
           fun requestParams =>
             invokeMiddlewares this rn (name method)
               (newRequest (descriptor method) requestParams) ]} in
  (k ∈ name <$> methods ->
     exists method, method ∈ methods /\ name method = k /\
       fold_left step methods init !! k =
         Some (fun requestParams =>
                 invokeMiddlewares this rn (name method)
                   (newRequest (descriptor method) requestParams)))
  /\ (k ∉ name <$> methods -> fold_left step methods init !! k = init !! k).
Proof.
  intros step.
  induction methods as [| method l [IHin IHout]] using rev_ind.
  - split; [intros Hin; inversion Hin | reflexivity].
  - rewrite fold_left_app, fmap_app. simpl. unfold step at 1 3, assign.
    rewrite elem_of_app, list_elem_of_singleton.
    destruct (decide (name method = k)) as [<- | Hne].
    + split.
      * intros _. exists method. split; [apply elem_of_snoc_here |].
        split; [reflexivity |].
        apply lookup_union_Some_l, lookup_singleton_eq.
      * intros Hout. exfalso. apply Hout. right. reflexivity.
    + split.
      * intros [Hin | Heq]; [| congruence].
        destruct (IHin Hin) as (method' & Hin' & Hname & Hlk).
        exists method'. split; [apply elem_of_snoc_further; exact Hin' |].
        split; [exact Hname |].
        rewrite lookup_union_r by (apply lookup_singleton_ne; exact Hne).
        exact Hlk.
      * intros Hout.
        rewrite lookup_union_r by (apply lookup_singleton_ne; exact Hne).
        apply IHout. intros Hin. apply Hout. left. exact Hin.
Qed.

Lemma build_fold_own (this : Builder)
    (resources : list (string * list MethodDef))
    (init : ClientObject) (k : string) :
  let step := fun (client : ClientObject)
                  '((name, methods) : string * list MethodDef) =>
    setProperty client name (buildResource this name methods) in
  (k <> "__proto__" -> k ∈ resources.*1 ->
     exists methods, (k, methods) ∈ resources /\
       own (fold_left step resources init) !! k =
         Some (Resource (buildResource this k methods)))
  /\ (k = "__proto__" \/ k ∉ resources.*1 ->
        own (fold_left step resources init) !! k = own init !! k).
Proof.
  intros step.
  induction resources as [| [n ms] l [IHin IHout]] using rev_ind.
  - split; [intros _ Hin; inversion Hin | reflexivity].
  - rewrite fold_left_app, fmap_app. simpl. unfold setProperty.
    rewrite elem_of_app, list_elem_of_singleton.
    destruct (decide (n = "__proto__")) as [-> | Hproto]; simpl.
    + split.
      * intros Hk [Hin | Heq]; [| congruence].
        destruct (IHin Hk Hin) as (ms' & Hin' & Hlk).
        exists ms'. split; [apply elem_of_snoc_further; exact Hin' | exact Hlk].
      * intros [Hk | Hout]; apply IHout; [left; exact Hk |].
        right. intros Hin. apply Hout. left. exact Hin.
    + destruct (decide (n = k)) as [<- | Hne].
      * split.
        -- intros _ _. exists ms. split; [apply elem_of_snoc_here |].
           apply lookup_insert_eq.
        -- intros [Hk | Hout]; [congruence |].
           exfalso. apply Hout. right. reflexivity.
      * rewrite lookup_insert_ne by exact Hne. split.
        -- intros Hk [Hin | Heq]; [| congruence].
           destruct (IHin Hk Hin) as (ms' & Hin' & Hlk).
           exists ms'. split; [apply elem_of_snoc_further; exact Hin' | exact Hlk].
        -- intros [Hk | Hout]; apply IHout; [left; exact Hk |].
           right. intros Hin. apply Hout. left. exact Hin.
Qed.

Lemma build_fold_prototype (this : Builder)
    (resources : list (string * list MethodDef)) (init : ClientObject) :
  let step := fun (client : ClientObject)
                  '((name, methods) : string * list MethodDef) =>
    setProperty client name (buildResource this name methods) in
  ("__proto__" ∈ resources.*1 ->
     exists methods, ("__proto__", methods) ∈ resources /\
       prototype (fold_left step resources init) =
         Some (buildResource this "__proto__" methods))
  /\ ("__proto__" ∉ resources.*1 ->
        prototype (fold_left step resources init) = prototype init).
Proof.
  intros step.
  induction resources as [| [n ms] l [IHin IHout]] using rev_ind.
  - split; [intros Hin; inversion Hin | reflexivity].
  - rewrite fold_left_app, fmap_app. simpl. unfold setProperty.
    rewrite elem_of_app, list_elem_of_singleton.
    destruct (decide (n = "__proto__")) as [-> | Hproto]; simpl.
    + split.
      * intros _. exists ms. split; [apply elem_of_snoc_here | reflexivity].
      * intros Hout. exfalso. apply Hout. right. reflexivity.
    + split.
      * intros [Hin | Heq]; [| congruence].
        destruct (IHin Hin) as (ms' & Hin' & Hlk).
        exists ms'. split; [apply elem_of_snoc_further; exact Hin' | exact Hlk].
      * intros Hout. apply IHout. intros Hin. apply Hout. left. exact Hin.
Qed.

(** C10 (as amended).  The client's own properties are one per resource
    name other than [__proto__], a map of generated methods built from a
    method list the manifest gives for that name, and the property
    [_manifest] holding the builder's manifest when no resource is named
    [_manifest]; it has no other own property.  A resource named
    [__proto__] is no property: it becomes the client's prototype.  A
    resource none of whose methods is named [__proto__] has one method per
    method name, and each generated method builds a request from its
    descriptor and the call-time parameters and hands it to
    [invokeMiddlewares] with the resource and method names. *)
Theorem build_client_shape (this : Builder) :
  let resources := eachResource (manifest this) in
  (forall rn, rn ∈ resources.*1 -> rn <> "__proto__" ->
     exists methods, (rn, methods) ∈ resources /\
       own (build this) !! rn = Some (Resource (buildResource this rn methods)))
  /\ ("_manifest" ∉ resources.*1 ->
        own (build this) !! "_manifest" = Some (ManifestRef (manifest this)))
  /\ (forall k, is_Some (own (build this) !! k) ->
        k <> "__proto__" /\ (k = "_manifest" \/ k ∈ resources.*1))
  /\ ("__proto__" ∉ resources.*1 -> prototype (build this) = None)
  /\ ("__proto__" ∈ resources.*1 ->
        exists methods, ("__proto__", methods) ∈ resources /\
          prototype (build this) = Some (buildResource this "__proto__" methods))
  /\ (forall rn methods mname,
        "__proto__" ∉ name <$> methods ->
        (is_Some (buildResource this rn methods !! mname)
         <-> mname ∈ name <$> methods))
  /\ (forall rn methods mname f,
        "__proto__" ∉ name <$> methods ->
        buildResource this rn methods !! mname = Some f ->
        exists method, method ∈ methods /\ name method = mname /\
          f = fun requestParams =>
                invokeMiddlewares this rn (name method)
                  (newRequest (descriptor method) requestParams)).
Proof.
  intros resources. unfold build. fold resources.
  set (init := mkClient {[ "_manifest" := ManifestRef (manifest this) ]} None).
  split; [| split; [| split; [| split; [| split; [| split]]]]].
  - intros rn Hin Hproto.
    destruct (build_fold_own this resources init rn) as [Hk _].
    exact (Hk Hproto Hin).
  - intros Hout.
    destruct (build_fold_own this resources init "_manifest") as [_ Hk].
    rewrite (Hk (or_intror Hout)). apply lookup_singleton_eq.
  - intros k Hk.
    destruct (build_fold_own this resources init k) as [_ Hinit].
    destruct (decide (k = "__proto__")) as [-> | Hproto].
    + rewrite (Hinit (or_introl eq_refl)) in Hk. simpl in Hk.
      rewrite lookup_singleton_ne in Hk by discriminate.
      destruct Hk as [? Hk]. discriminate.
    + split; [exact Hproto |].
      destruct (decide (k ∈ resources.*1)) as [Hin | Hout]; [right; exact Hin |].
      left. rewrite (Hinit (or_intror Hout)) in Hk. simpl in Hk.
      destruct (decide (k = "_manifest")) as [-> | Hne]; [reflexivity |].
      rewrite lookup_singleton_ne in Hk by congruence.
      destruct Hk as [? Hk]. discriminate.
  - intros Hout.
    destruct (build_fold_prototype this resources init) as [_ Hk].
    exact (Hk Hout).
  - intros Hin.
    destruct (build_fold_prototype this resources init) as [Hk _].
    exact (Hk Hin).
  - intros rn methods mname _. unfold buildResource. cbv zeta.
    destruct (buildResource_fold_lookup this rn methods ∅ mname) as [Hin Hout].
    split.
    + intros Hsome.
      destruct (decide (mname ∈ name <$> methods)) as [Hyes | Hno];
        [exact Hyes |].
      rewrite (Hout Hno), lookup_empty in Hsome.
      destruct Hsome as [? Hsome]. discriminate.
    + intros Hyes. destruct (Hin Hyes) as (method & _ & _ & Hlk).
      eexists. exact Hlk.
  - intros rn methods mname f _ Hf. unfold buildResource in Hf. cbv zeta in Hf.
    destruct (buildResource_fold_lookup this rn methods ∅ mname) as [Hin Hout].
    destruct (decide (mname ∈ name <$> methods)) as [Hyes | Hno].
    + destruct (Hin Hyes) as (method & Hmem & Hname & Hlk).
      exists method. split; [exact Hmem |]. split; [exact Hname |].
      pose proof (eq_trans (eq_sym Hf) Hlk) as Heq. congruence.
    + pose proof (eq_trans (eq_sym Hf) (Hout Hno)) as Heq.
      rewrite lookup_empty in Heq. discriminate.
Qed.

(** * Further properties of the engine *)

(** Below middleware that only forward there is just the gateway call. *)
Lemma execute_forwarding (this : Builder) (mws : list Middleware)
    (fr : Request) (w : World) :
  (forall m, m ∈ mws -> forwards m) ->
  execute this mws fr w = callGateway this fr w.
Proof.
  intros Hfw. exact (execute_app_forwarding this [] mws fr w Hfw).
Qed.

(** ** The request phase *)

Lemma fold_chainRequestPhase_then (l : list Middleware) (p : Promise Request)
    (w : World) :
  fold_left chainRequestPhase l p w
    = then_ p (fun r => requestPhase l r) w.
Proof.
  revert p w. induction l as [| m l IH]; intros p w; simpl.
  - unfold requestPhase; simpl. symmetry. apply then_resolve_run.
  - rewrite IH. unfold then_. rewrite chainRequestPhase_run.
    destruct (p w) as [[r | e] w1]; [| reflexivity].
    unfold requestPhase; simpl. rewrite IH.
    unfold then_. rewrite chainRequestPhase_run. reflexivity.
Qed.

Lemma requestPhase_split (l1 l2 : list Middleware) (req : Request) (w : World) :
  requestPhase (l1 ++ l2) req w
    = then_ (requestPhase l1 req) (fun r => requestPhase l2 r) w.
Proof.
  unfold requestPhase at 1. rewrite fold_left_app.
  apply (fold_chainRequestPhase_then l2 (requestPhase l1 req) w).
Qed.

(** X1.  The request phase of a list split in two is the request phase of
    the first part followed, when it resolves, by the request phase of the
    second part started from the request the first part produced; a
    rejection in the first part is the result. *)
Theorem requestPhase_app (l1 l2 : list Middleware) (req : Request) (w : World) :
  requestPhase (l1 ++ l2) req w
    = match requestPhase l1 req w with
      | (Resolved r, w1) => requestPhase l2 r w1
      | (Rejected e, w1) => (Rejected e, w1)
      end.
Proof.
  unfold requestPhase at 1. rewrite fold_left_app.
  exact (fold_chainRequestPhase_then l2 (requestPhase l1 req) w).
Qed.

(** ** The whole call *)

(** X2.  When every middleware defines [request] and every [response] hook
    only forwards, the call runs the [request] hooks in declared order, each
    on the request the one before it returned, and then is the gateway call
    on the last request; if a hook rejects, that is the result and the
    gateway is not called. *)
Theorem invokeMiddlewares_pipeline (this : Builder) (rn rm : string)
    (req : Request) (w : World) (hooks : list (Request -> Async Request)) :
  let mws := createMiddleware (manifest this) (mkBinding rn rm) in
  Forall2 (fun m h => request m = Some h) mws hooks ->
  (forall m, m ∈ mws -> forwards m) ->
  invokeMiddlewares this rn rm req w =
    match runRequestHooks hooks req (store w) with
    | (Resolved fr, s) => callGateway this fr (mkWorld s (log w) (calls w))
    | (Rejected e, s) => (Rejected e, mkWorld s (log w) (calls w))
    end.
Proof.
  intros mws Hreq Hfw.
  rewrite invokeMiddlewares_run. fold mws.
  rewrite (requestPhase_hooks mws hooks req w Hreq). unfold liftS.
  destruct (runRequestHooks hooks req (store w)) as [[fr | e] s];
    [| reflexivity].
  apply execute_forwarding. exact Hfw.
Qed.

(** X3.  With an empty middleware list and a gateway class in place, the
    call constructs the gateway once, on the initial request and the
    manifest's gateway configs: its outcome is the outcome of the call,
    exactly that request is added to the calls made, and nothing is
    logged. *)
Theorem invokeMiddlewares_empty_list (this : Builder) (rn rm : string)
    (req : Request) (w : World) (gatewayClass : GatewayClass) :
  createMiddleware (manifest this) (mkBinding rn rm) = [] ->
  GatewayClassFactory this tt = Js.Obj gatewayClass ->
  invokeMiddlewares this rn rm req w =
    (fst (gatewayClass req (gatewayConfigs (manifest this)) (store w)),
     mkWorld (snd (gatewayClass req (gatewayConfigs (manifest this)) (store w)))
             (log w) (calls w ++ [req])).
Proof.
  intros Hnil Hcls.
  rewrite (invokeMiddlewares_no_middleware this rn rm req w Hnil).
  unfold callGateway. rewrite Hcls.
  destruct (gatewayClass req _ (store w)) as [o s]. reflexivity.
Qed.

(** ** Transformations of the response *)

Lemma runAfterHooks_snoc (posts : list (Response -> Async Response))
    (post : Response -> Async Response) (r : Response) (s : Store) :
  runAfterHooks (posts ++ [post]) r s =
    match runAfterHooks posts r s with
    | (Resolved r', s') => post r' s'
    | (Rejected e, s') => (Rejected e, s')
    end.
Proof.
  revert r s. induction posts as [| p posts IH]; intros r s; simpl.
  - destruct (post r s) as [[r' | e] s']; reflexivity.
  - destruct (p r s) as [[r' | e] s']; [apply IH | reflexivity].
Qed.

(** X4.  When every middleware's [response] hook calls [next()] and then
    transforms the response, the gateway is called first and the
    transformations apply in declared order: middleware 0's first, the last
    middleware's last, each on the response the one before it returned; a
    gateway rejection skips them all. *)
Theorem execute_afterNext_order (this : Builder) (mws : list Middleware)
    (posts : list (Response -> Async Response)) (fr : Request) (w : World) :
  Forall2 (fun m post => response m = Some (afterNext post)) mws posts ->
  execute this mws fr w =
    match callGateway this fr w with
    | (Resolved r, w1) => liftS (runAfterHooks posts r) w1
    | (Rejected e, w1) => (Rejected e, w1)
    end.
Proof.
  intros Hall. revert posts Hall w.
  induction mws as [| m l IH] using rev_ind; intros posts Hall w.
  - apply Forall2_nil_inv_l in Hall as ->. rewrite execute_nil.
    destruct (callGateway this fr w) as [[r | e] [s lg c]]; reflexivity.
  - apply Forall2_app_inv_l in Hall as (posts1 & posts2 & H1 & H2 & ->).
    apply Forall2_cons_inv_l in H2 as (post & rest & Hm & Hrest & ->).
    apply Forall2_nil_inv_l in Hrest as ->.
    rewrite execute_snoc. unfold callResponse. rewrite Hm.
    unfold afterNext, then_. rewrite (IH posts1 H1 w).
    destruct (callGateway this fr w) as [[r | e] w1]; [| reflexivity].
    unfold liftS. rewrite runAfterHooks_snoc.
    destruct (runAfterHooks posts1 r (store w1)) as [[r' | e] s']; reflexivity.
Qed.

(** X5.  A [response] hook that settles without calling [next], below
    middleware that only forward, decides the call: the result is the
    hook's own, the gateway is not called and the hooks of the middleware
    before it do not run. *)
Theorem invokeMiddlewares_next_not_called (this : Builder) (rn rm : string)
    (req fr : Request) (w w1 : World) (inner outer : list Middleware)
    (m : Middleware) (body : Async Response) :
  createMiddleware (manifest this) (mkBinding rn rm) = inner ++ m :: outer ->
  (forall m', m' ∈ outer -> forwards m') ->
  response m = Some (fun _ _ => liftS body) ->
  requestPhase (inner ++ m :: outer) req w = (Resolved fr, w1) ->
  invokeMiddlewares this rn rm req w = liftS body w1
  /\ calls (snd (invokeMiddlewares this rn rm req w)) = calls w
  /\ log (snd (invokeMiddlewares this rn rm req w)) = log w.
Proof.
  intros Hmws Hfw Hresp Hreq.
  assert (Hrun : invokeMiddlewares this rn rm req w = liftS body w1).
  { rewrite invokeMiddlewares_run, Hmws, Hreq.
    replace (inner ++ m :: outer) with ((inner ++ [m]) ++ outer)
      by (rewrite <- app_assoc; reflexivity).
    rewrite execute_app_forwarding by exact Hfw.
    rewrite execute_snoc. unfold callResponse. rewrite Hresp. reflexivity. }
  split; [exact Hrun |].
  rewrite Hrun. destruct (liftS body w1) as [o w2] eqn:E. simpl.
  apply liftS_frame in E as [Hl2 Hc2].
  apply requestPhase_frame in Hreq as [Hl1 Hc1]. split; congruence.
Qed.

(** X6.  A [response] hook of the last middleware that calls [next()]
    again after it resolved, above middleware that only forward, makes the
    gateway be called twice on the same final request; the request phase
    is not run again, and the second call's outcome is the result. *)
Theorem invokeMiddlewares_next_twice (this : Builder) (rn rm : string)
    (req fr : Request) (w w1 : World) (l : list Middleware) (m : Middleware)
    (gatewayClass : GatewayClass) (r1 : Response) (s1 : Store) :
  let cfg := gatewayConfigs (manifest this) in
  createMiddleware (manifest this) (mkBinding rn rm) = l ++ [m] ->
  (forall m', m' ∈ l -> forwards m') ->
  response m = Some nextTwice ->
  requestPhase (l ++ [m]) req w = (Resolved fr, w1) ->
  GatewayClassFactory this tt = Js.Obj gatewayClass ->
  gatewayClass fr cfg (store w1) = (Resolved r1, s1) ->
  invokeMiddlewares this rn rm req w =
    (fst (gatewayClass fr cfg s1),
     mkWorld (snd (gatewayClass fr cfg s1)) (log w) (calls w ++ [fr; fr])).
Proof.
  intros cfg Hmws Hfw Hresp Hreq Hcls Hfirst.
  rewrite invokeMiddlewares_run, Hmws, Hreq, execute_snoc.
  unfold callResponse. rewrite Hresp. unfold nextTwice, then_.
  rewrite (execute_forwarding this l fr w1 Hfw).
  unfold callGateway at 1. rewrite Hcls. fold cfg. rewrite Hfirst.
  rewrite (execute_forwarding this l fr _ Hfw).
  unfold callGateway. rewrite Hcls. fold cfg. simpl.
  apply requestPhase_frame in Hreq as [-> ->].
  destruct (gatewayClass fr cfg s1) as [o s2]. simpl.
  rewrite <- app_assoc. reflexivity.
Qed.

(** X7.  A middleware that is [{ request: (request) => request,
    response: (next) => next() }] is a no-op wherever it stands in the
    list: the call is the same with it and without it. *)
Theorem transparent_middleware_noop (this : Builder) (rn rm : string)
    (req : Request) (w : World) (l1 l2 : list Middleware) (m : Middleware) :
  transparent m ->
  invokeMiddlewares (withMiddleware this (l1 ++ m :: l2)) rn rm req w
    = invokeMiddlewares (withMiddleware this (l1 ++ l2)) rn rm req w.
Proof.
  intros [Hrq Hrs].
  rewrite !invokeMiddlewares_run. simpl.
  assert (Hphase : requestPhase (l1 ++ m :: l2) req w
                     = requestPhase (l1 ++ l2) req w).
  { rewrite !requestPhase_split. unfold then_.
    destruct (requestPhase l1 req w) as [[r | e] w1]; [| reflexivity].
    change (m :: l2) with ([m] ++ l2). rewrite requestPhase_split.
    unfold then_. unfold requestPhase at 1. simpl.
    rewrite chainRequestPhase_run. unfold resolve, callRequest.
    rewrite Hrq. unfold liftS, sameRequest. destruct w1; reflexivity. }
  rewrite Hphase.
  destruct (requestPhase (l1 ++ l2) req w) as [[fr | e] w1]; [| reflexivity].
  unfold execute. rewrite !fold_left_app. simpl.
  unfold chainResponsePhase at 2, callResponse. rewrite Hrs. reflexivity.
Qed.

(** X8.  When the factory yields something that is not a class at call time
    and the [response] hooks only forward, the [request] hooks still run,
    then the call rejects with the [TypeError] of the failed construction;
    no gateway call is made. *)
Theorem invokeMiddlewares_gateway_not_a_class (this : Builder) (rn rm : string)
    (req fr : Request) (w w1 : World) :
  let mws := createMiddleware (manifest this) (mkBinding rn rm) in
  (forall cls, GatewayClassFactory this tt <> Js.Obj cls) ->
  (forall m, m ∈ mws -> forwards m) ->
  requestPhase mws req w = (Resolved fr, w1) ->
  invokeMiddlewares this rn rm req w
    = (Rejected (Js.TypeError "GatewayClass is not a constructor"), w1)
  /\ calls w1 = calls w.
Proof.
  intros mws Hcls Hfw Hreq. split.
  - rewrite invokeMiddlewares_run. fold mws. rewrite Hreq.
    rewrite (execute_forwarding this mws fr w1 Hfw).
    unfold callGateway.
    destruct (GatewayClassFactory this tt) as [| | b | z | | s | cls] eqn:E;
      try reflexivity.
    exfalso. exact (Hcls cls eq_refl).
  - apply requestPhase_frame in Hreq as [_ Hc]. exact Hc.
Qed.

(** ** The client object, with names that do not repeat *)

Lemma NoDup_fmap_elem_eq {A B} (f : A -> B) (l : list A) (x y : A) :
  NoDup (f <$> l) -> x ∈ l -> y ∈ l -> f x = f y -> x = y.
Proof.
  induction l as [| a l IH]; simpl; intros Hnd Hx Hy Hf.
  - inversion Hx.
  - apply NoDup_cons in Hnd as [Hnotin Hnd].
    apply elem_of_cons in Hx as [-> | Hx];
      apply elem_of_cons in Hy as [-> | Hy].
    + reflexivity.
    + exfalso. apply Hnotin. rewrite Hf. apply list_elem_of_fmap_2. exact Hy.
    + exfalso. apply Hnotin. rewrite <- Hf. apply list_elem_of_fmap_2. exact Hx.
    + exact (IH Hnd Hx Hy Hf).
Qed.

(** X10.  When the resource names of the manifest do not repeat and the
    method names of a resource do not repeat, the client's property for
    that resource is the object built from exactly its methods, and the
    property for each method is the function that builds a request from
    that method's descriptor and the call-time parameters and runs
    [invokeMiddlewares] with the resource and method names. *)
Theorem build_method_lookup (this : Builder) (rn : string)
    (methods : list MethodDef) (method : MethodDef) :
  NoDup (eachResource (manifest this)).*1 ->
  (rn, methods) ∈ eachResource (manifest this) ->
  NoDup (name <$> methods) ->
  method ∈ methods ->
  build this !! rn = Some (Resource (buildResource this rn methods))
  /\ buildResource this rn methods !! name method
     = Some (fun requestParams =>
               invokeMiddlewares this rn (name method)
                 (newRequest (descriptor method) requestParams)).
Proof.
  intros Hnd Hin Hndm Hm. split.
  - assert (Hrn : rn ∈ (eachResource (manifest this)).*1).
    { change rn with (fst (rn, methods)). apply list_elem_of_fmap_2. exact Hin. }
    unfold lookup, client_lookup, getProperty, build.
    set (init := mkClient {[ "_manifest" := ManifestRef (manifest this) ]} None).
    destruct (decide (rn = "__proto__")) as [-> | Hproto].
    + destruct (proj1 (build_fold_prototype this
                         (eachResource (manifest this)) init) Hrn)
        as (methods' & Hin' & Hlk).
      assert (Heq : ("__proto__", methods') = ("__proto__", methods))
        by (exact (NoDup_fmap_elem_eq fst _ _ _ Hnd Hin' Hin eq_refl)).
      injection Heq as ->. rewrite Hlk. reflexivity.
    + destruct (proj1 (build_fold_own this
                         (eachResource (manifest this)) init rn) Hproto Hrn)
        as (methods' & Hin' & Hlk).
      assert (Heq : (rn, methods') = (rn, methods))
        by (exact (NoDup_fmap_elem_eq fst _ _ _ Hnd Hin' Hin eq_refl)).
      injection Heq as ->. rewrite Hlk. reflexivity.
  - destruct (buildResource_fold_lookup this rn methods ∅ (name method))
      as [Hk _].
    destruct Hk as (method' & Hin' & Hname & Hlk).
    { apply list_elem_of_fmap_2. exact Hm. }
    assert (Heq : method' = method)
      by (exact (NoDup_fmap_elem_eq name _ _ _ Hndm Hin' Hm Hname)).
    subst method'. exact Hlk.
Qed.

(** ** Successive [setContext] calls *)

(** X12.  Two [setContext] calls in a row leave the context that one call
    with the merged argument (the later values winning) leaves; a call with
    an empty object changes nothing, and repeating a call changes nothing
    more. *)
Theorem setContext_compose (a b : gmap string ContextValue) (configs : Configs) :
  setContext b (setContext a configs) = setContext (assign a b) configs
  /\ setContext ∅ configs = configs
  /\ setContext a (setContext a configs) = setContext a configs.
Proof.
  unfold setContext, assign; simpl. repeat split.
  - rewrite (assoc_L (∪)). reflexivity.
  - rewrite (left_id_L ∅ (∪)). destruct configs; reflexivity.
  - rewrite (assoc_L (∪)), (idemp_L (∪)). reflexivity.
Qed.

(** * Middleware as the manifest creates it *)

Lemma chainRequestPhase_sameRequest (p : Promise Request) (m : Middleware)
    (w : World) :
  request m = Some sameRequest ->
  chainRequestPhase p m w = p w.
Proof.
  intros Hrq. rewrite chainRequestPhase_run.
  destruct (p w) as [[r | e] w1]; [| reflexivity].
  unfold callRequest. rewrite Hrq. unfold liftS, sameRequest.
  destruct w1; reflexivity.
Qed.

Lemma requestPhase_skip_transparent (l1 l2 : list Middleware) (m : Middleware)
    (req : Request) (w : World) :
  transparent m ->
  requestPhase (l1 ++ m :: l2) req w = requestPhase (l1 ++ l2) req w.
Proof.
  intros [Hrq _]. rewrite !requestPhase_split. unfold then_.
  destruct (requestPhase l1 req w) as [[r | e] w1]; [| reflexivity].
  change (m :: l2) with ([m] ++ l2). rewrite requestPhase_split.
  unfold then_. unfold requestPhase at 1. simpl.
  rewrite (chainRequestPhase_sameRequest _ _ _ Hrq). reflexivity.
Qed.

Lemma execute_skip_transparent (this : Builder) (l1 l2 : list Middleware)
    (m : Middleware) (fr : Request) :
  transparent m ->
  execute this (l1 ++ m :: l2) fr = execute this (l1 ++ l2) fr.
Proof.
  intros [_ Hrs]. unfold execute. rewrite !fold_left_app. simpl.
  unfold chainResponsePhase at 2, callResponse. rewrite Hrs. reflexivity.
Qed.

Lemma withDefaultHooks_transparent (instance : Middleware) :
  request instance = None -> response instance = None ->
  transparent (withDefaultHooks instance).
Proof.
  intros Hrq Hrs. unfold transparent, withDefaultHooks.
  rewrite Hrq, Hrs. split; reflexivity.
Qed.

Lemma withDefaultHooks_forwards (instance : Middleware) :
  response instance = None -> forwards (withDefaultHooks instance).
Proof.
  intros Hrs. exists justNext. unfold withDefaultHooks. rewrite Hrs.
  split; [reflexivity | intros next w; reflexivity].
Qed.

Lemma createMiddleware_request_hooks (factories : list MiddlewareFactory)
    (values : gmap string ContextValue) (id : option string)
    (binding : BindingContext) :
  Forall2 (fun m h => request m = Some h)
    (Manifest_createMiddleware factories values id binding)
    (map (fun factory : MiddlewareFactory =>
            requestHookOf
              (factory (mkMiddlewareContext (resourceName binding)
                          (resourceMethod binding) values id)))
         factories).
Proof.
  unfold Manifest_createMiddleware.
  induction factories as [| factory l IH]; simpl; constructor.
  - reflexivity.
  - exact IH.
Qed.

Lemma invokeMiddlewares_hooks_run (this : Builder) (rn rm : string)
    (req : Request) (w : World) (hooks : list (Request -> Async Request)) :
  Forall2 (fun m h => request m = Some h)
    (createMiddleware (manifest this) (mkBinding rn rm)) hooks ->
  invokeMiddlewares this rn rm req w =
    match runRequestHooks hooks req (store w) with
    | (Resolved fr, s) =>
        execute this (createMiddleware (manifest this) (mkBinding rn rm)) fr
          (mkWorld s (log w) (calls w))
    | (Rejected e, s) => (Rejected e, mkWorld s (log w) (calls w))
    end.
Proof.
  intros Hreq. rewrite invokeMiddlewares_run.
  rewrite (requestPhase_hooks _ hooks req w Hreq). unfold liftS.
  destruct (runRequestHooks hooks req (store w)) as [[fr | e] s]; reflexivity.
Qed.

(** C4.  An instance that defines neither hook is a complete no-op in the
    list the manifest creates: the working request passes through its
    request slot unchanged, world and all; its response slot is the [next]
    continuation itself; and the call is, outcome and world, the call with
    that middleware left out of the list, so it rejects only where that
    call rejects. *)
Theorem hookless_middleware_is_noop (this : Builder) (rn rm : string)
    (before after : list MiddlewareFactory) (factory : MiddlewareFactory)
    (values : gmap string ContextValue) (id : option string) :
  let binding := mkBinding rn rm in
  let instance := factory (mkMiddlewareContext rn rm values id) in
  request instance = None ->
  response instance = None ->
  createMiddleware (manifest this) binding
    = Manifest_createMiddleware (before ++ factory :: after) values id binding ->
  (forall (p : Promise Request) (w : World),
      chainRequestPhase p (withDefaultHooks instance) w = p w)
  /\ (forall next : Promise Response,
        chainResponsePhase next (withDefaultHooks instance) = next)
  /\ (forall (req : Request) (w : World),
        invokeMiddlewares this rn rm req w =
          invokeMiddlewares
            (withMiddleware this
               (Manifest_createMiddleware (before ++ after) values id binding))
            rn rm req w).
Proof.
  intros binding instance Hrq Hrs Hmws.
  pose proof (withDefaultHooks_transparent instance Hrq Hrs) as Htr.
  split; [| split].
  - intros p w. apply chainRequestPhase_sameRequest. exact (proj1 Htr).
  - intros next. unfold chainResponsePhase, callResponse.
    rewrite (proj2 Htr). reflexivity.
  - intros req w. rewrite !invokeMiddlewares_run. fold binding.
    rewrite Hmws. simpl.
    unfold Manifest_createMiddleware. rewrite !map_app. simpl.
    fold instance.
    rewrite (requestPhase_skip_transparent _ _ _ req w Htr).
    destruct (requestPhase _ req w) as [[fr | e] w1]; [| reflexivity].
    rewrite (execute_skip_transparent this _ _ _ fr Htr). reflexivity.
Qed.

(** C5.  Over the list the manifest creates, the request phase is the
    sequential left-to-right fold from the initial request: each middleware
    in declared order contributes its [request] hook if it defines one and
    the identity otherwise, each hook is given the request the hooks before
    it produced, and a rejection ends the fold.  The request the fold
    yields is the one the response phase is built on, with the gateway
    call on that request as its innermost continuation. *)
Theorem request_phase_is_sequential_fold (this : Builder) (rn rm : string)
    (factories : list MiddlewareFactory)
    (values : gmap string ContextValue) (id : option string)
    (req : Request) (w : World) :
  let binding := mkBinding rn rm in
  let mws := createMiddleware (manifest this) binding in
  let hooks :=
    map (fun factory : MiddlewareFactory =>
           match request (factory (mkMiddlewareContext rn rm values id)) with
           | Some hook => hook
           | None => sameRequest
           end) factories in
  mws = Manifest_createMiddleware factories values id binding ->
  requestPhase mws req w = liftS (runRequestHooks hooks req) w
  /\ invokeMiddlewares this rn rm req w =
       match runRequestHooks hooks req (store w) with
       | (Resolved finalRequest, s) =>
           execute this mws finalRequest (mkWorld s (log w) (calls w))
       | (Rejected e, s) => (Rejected e, mkWorld s (log w) (calls w))
       end
  /\ (forall finalRequest,
        execute this mws finalRequest =
          fold_left chainResponsePhase mws (callGateway this finalRequest)).
Proof.
  intros binding mws hooks Hmws.
  assert (Hall : Forall2 (fun m h => request m = Some h) mws hooks).
  { rewrite Hmws. exact (createMiddleware_request_hooks factories values id binding). }
  split; [| split].
  - exact (requestPhase_hooks mws hooks req w Hall).
  - exact (invokeMiddlewares_hooks_run this rn rm req w hooks Hall).
  - intros finalRequest. reflexivity.
Qed.

(** C6.  Over the list the manifest creates, with a gateway class in
    place: when no middleware defines [response], a call whose request
    phase yields the final request makes exactly one gateway call, on that
    request, and the gateway's outcome is the outcome of the call
    unchanged (a rejecting [request] hook ends the call before any gateway
    call).  And when a middleware's [response] hook resolves a response
    without calling [next], the middleware after it only forwarding, the
    call resolves with that response and the gateway is not called. *)
Theorem no_response_hooks_one_gateway_call (this : Builder) (rn rm : string)
    (values : gmap string ContextValue) (id : option string)
    (req : Request) (w : World) :
  let binding := mkBinding rn rm in
  let context := mkMiddlewareContext rn rm values id in
  let hooksOf := map (fun factory : MiddlewareFactory =>
                        requestHookOf (factory context)) in
  (forall (factories : list MiddlewareFactory) (gatewayClass : GatewayClass),
      createMiddleware (manifest this) binding
        = Manifest_createMiddleware factories values id binding ->
      (forall factory, factory ∈ factories -> response (factory context) = None) ->
      GatewayClassFactory this tt = Js.Obj gatewayClass ->
      invokeMiddlewares this rn rm req w =
        match runRequestHooks (hooksOf factories) req (store w) with
        | (Resolved finalRequest, s) =>
            (fst (gatewayClass finalRequest (gatewayConfigs (manifest this)) s),
             mkWorld
               (snd (gatewayClass finalRequest (gatewayConfigs (manifest this)) s))
               (log w) (calls w ++ [finalRequest]))
        | (Rejected e, s) => (Rejected e, mkWorld s (log w) (calls w))
        end)
  /\ (forall (inner outer : list MiddlewareFactory) (factory : MiddlewareFactory)
             (body : Async Response) (finalRequest : Request) (s s' : Store)
             (r : Response),
        createMiddleware (manifest this) binding
          = Manifest_createMiddleware (inner ++ factory :: outer) values id binding ->
        response (factory context) = Some (fun _ _ => liftS body) ->
        (forall f, f ∈ outer -> forwards (withDefaultHooks (f context))) ->
        runRequestHooks (hooksOf (inner ++ factory :: outer)) req (store w)
          = (Resolved finalRequest, s) ->
        body s = (Resolved r, s') ->
        invokeMiddlewares this rn rm req w
          = (Resolved r, mkWorld s' (log w) (calls w))).
Proof.
  intros binding context hooksOf. split.
  - intros factories gatewayClass Hmws Hnone Hcls.
    rewrite (invokeMiddlewares_hooks_run this rn rm req w (hooksOf factories))
      by (fold binding; rewrite Hmws;
          exact (createMiddleware_request_hooks factories values id binding)).
    destruct (runRequestHooks (hooksOf factories) req (store w))
      as [[fr | e] s]; [| reflexivity].
    fold binding. rewrite Hmws.
    rewrite execute_forwarding.
    + unfold callGateway. rewrite Hcls. simpl.
      destruct (gatewayClass fr (gatewayConfigs (manifest this)) s) as [o s1].
      reflexivity.
    + intros m Hm. unfold Manifest_createMiddleware in Hm.
      apply list_elem_of_fmap in Hm as (factory & -> & Hin).
      apply withDefaultHooks_forwards. exact (Hnone factory Hin).
  - intros inner outer factory body fr s s' r Hmws Hresp Hfw Hreq Hbody.
    rewrite (invokeMiddlewares_hooks_run this rn rm req w
               (hooksOf (inner ++ factory :: outer)))
      by (fold binding; rewrite Hmws;
          exact (createMiddleware_request_hooks _ values id binding)).
    rewrite Hreq. fold binding. rewrite Hmws.
    unfold Manifest_createMiddleware. rewrite map_app. simpl.
    match goal with
    | |- execute this (?l1 ++ ?m :: ?l2) fr ?w1 = _ =>
        replace (l1 ++ m :: l2) with ((l1 ++ [m]) ++ l2)
          by (rewrite <- app_assoc; reflexivity)
    end.
    rewrite execute_app_forwarding.
    + rewrite execute_snoc. unfold callResponse, withDefaultHooks. simpl.
      fold context. rewrite Hresp. unfold liftS. simpl. rewrite Hbody.
      reflexivity.
    + intros m Hm. apply list_elem_of_fmap in Hm as (f & -> & Hin).
      exact (Hfw f Hin).
Qed.

End EngineFacts.

(** * The engine on concrete inputs *)

#[local] Existing Instance demoHost.

Local Open Scope list_scope.

(** ** Order of the response hooks *)

Lemma response_hooks_run_last_to_first_witness :
  log (snd (invokeMiddlewares
              (demoBuilder [recorder 0; recorder 1; recorder 2])
              "User" "byId" "r" w0)) = [2; 1; 0].
Proof.
  refine (proj2 (response_hooks_run_last_to_first
                   (demoBuilder [recorder 0; recorder 1; recorder 2])
                   "User" "byId" "r" "r" w0 w0 _ _)).
  - intros [| [| [| i]]] m; simpl; intros [= <-]; reflexivity.
  - reflexivity.
Defined.

(** Against C1 as stated: two recording middleware, both hooks defined, log
    the indices as [1, 0], not in declared order. *)
Lemma declared_order_log_counterexample :
  ~ (forall (this : Builder) (rn rm : string) (req : Request) (w : World),
       let mws := createMiddleware (manifest this) (mkBinding rn rm) in
       (forall i m, mws !! i = Some m -> response m = Some (recordThenNext i)) ->
       log (snd (invokeMiddlewares this rn rm req w))
         = log w ++ seq 0 (length mws)).
Proof.
  intros Hclaim.
  specialize (Hclaim (demoBuilder [recorder 0; recorder 1]) "User" "byId" "r" w0).
  simpl in Hclaim.
  assert (Hrec : forall i m,
             [recorder 0; recorder 1] !! i = Some m ->
             response m = Some (recordThenNext i)).
  { intros [| [| i]] m; simpl; intros [= <-]; reflexivity. }
  specialize (Hclaim Hrec). vm_compute in Hclaim. discriminate.
Qed.

(** ** Propagation of failures *)

Lemma rejection_propagates_witness :
  invokeMiddlewares
    (demoBuilder [countingRequest; failingRequest; countingRequest])
    "User" "byId" "r" w0
    = (Rejected (Js.Error "denied"), mkWorld 1 [] [])
  /\ invokeMiddlewares (downBuilder [bothHooks; bothHooks]) "User" "byId" "r" w0
     = (Rejected (Js.Error "network down"), mkWorld 0 [] ["r"])
  /\ invokeMiddlewares (demoBuilder [failingResponse; bothHooks])
       "User" "byId" "r" w0
     = (Rejected (Js.Error "refused"), w0).
Proof.
  split; [| split].
  - refine (proj1 (proj1 (rejection_propagates
                     (demoBuilder [countingRequest; failingRequest; countingRequest])
                     "User" "byId" "r" w0)
                   1 failingRequest "r+" (mkWorld 1 [] [])
                   (Js.Error "denied") (mkWorld 1 [] []) _ _ _));
      reflexivity.
  - refine (proj1 (proj2 (proj2 (proj2 (proj2 (rejection_propagates
                     (downBuilder [bothHooks; bothHooks])
                     "User" "byId" "r" w0)))))
                   0 "r" w0 (Js.Error "network down") (mkWorld 0 [] ["r"]) _ _ _).
    + intros m Hm. exists justNext.
      split; [| intros next w'; reflexivity].
      apply list_elem_of_In in Hm. simpl in Hm.
      destruct Hm as [<- | [<- | []]]; reflexivity.
    + reflexivity.
    + reflexivity.
  - refine (proj1 (proj2 (proj2 (proj2 (proj2 (rejection_propagates
                     (demoBuilder [failingResponse; bothHooks])
                     "User" "byId" "r" w0)))))
                   1 "r" w0 (Js.Error "refused") w0 _ _ _).
    + intros m Hm. exists justNext.
      split; [| intros next w'; reflexivity].
      apply list_elem_of_In in Hm. simpl in Hm.
      destruct Hm as [<- | []]; reflexivity.
    + reflexivity.
    + reflexivity.
Defined.

(** ** Construction *)

Lemma ClientBuilder_throws_exactly_witness :
  ClientBuilder demoNewManifest Js.Undefined None demoConfigs
    = inl (Js.Error "[Mappersmith] invalid manifest (undefined)")
  /\ ClientBuilder demoNewManifest (Js.Obj tt) (Some (fun _ => Js.Null)) demoConfigs
     = inl (Js.Error "[Mappersmith] gateway class not configured (configs.gateway)").
Proof.
  split.
  - refine (proj1 (ClientBuilder_throws_exactly
                     demoNewManifest Js.Undefined None demoConfigs) _).
    reflexivity.
  - refine (proj1 (proj2 (ClientBuilder_throws_exactly
                     demoNewManifest (Js.Obj tt) (Some (fun _ => Js.Null))
                     demoConfigs)) _ _); reflexivity.
Defined.

(** ** The shared context *)

Lemma setContext_merges_witness :
  context (setContext {[ "foo" := "baz" ]}
             (setContext {[ "foo" := "bar"; "keep" := "1" ]} demoConfigs))
    !! "foo" = Some "baz"
  /\ context (setContext {[ "foo" := "baz" ]}
                (setContext {[ "foo" := "bar"; "keep" := "1" ]} demoConfigs))
       !! "keep" = Some "1".
Proof.
  split.
  - refine (proj1 (setContext_merges {[ "foo" := "baz" ]}
                     (setContext {[ "foo" := "bar"; "keep" := "1" ]} demoConfigs))
                  "foo" "baz" _).
    reflexivity.
  - refine (eq_trans
              (proj1 (proj2 (setContext_merges {[ "foo" := "baz" ]}
                 (setContext {[ "foo" := "bar"; "keep" := "1" ]} demoConfigs)))
                 "keep" _) _);
      reflexivity.
Defined.

(** ** The client object *)

Lemma build_client_shape_witness :
  own (build (demoBuilder [])) !! "_manifest"
    = Some (ManifestRef (manifest (demoBuilder [])))
  /\ is_Some (own (build (demoBuilder [])) !! "User")
  /\ prototype (build (demoBuilder [])) = None
  /\ is_Some (prototype (build protoBuilder))
  /\ own (build protoBuilder) !! "__proto__" = None.
Proof.
  split; [| split; [| split; [| split]]].
  - refine (proj1 (proj2 (build_client_shape (demoBuilder []))) _).
    simpl. intros Hin. apply list_elem_of_In in Hin. simpl in Hin.
    destruct Hin as [Heq | []]. discriminate.
  - destruct (proj1 (build_client_shape (demoBuilder [])) "User")
      as (ms & _ & Hlk).
    + simpl. apply list_elem_of_In. simpl. left. reflexivity.
    + discriminate.
    + rewrite Hlk. eexists. reflexivity.
  - refine (proj1 (proj2 (proj2 (proj2 (build_client_shape (demoBuilder []))))) _).
    simpl. intros Hin. apply list_elem_of_In in Hin. simpl in Hin.
    destruct Hin as [Heq | []]. discriminate.
  - destruct (proj1 (proj2 (proj2 (proj2 (proj2
                (build_client_shape protoBuilder))))))
      as (ms & _ & Hlk).
    + simpl. apply list_elem_of_In. simpl. left. reflexivity.
    + rewrite Hlk. eexists. reflexivity.
  - destruct (own (build protoBuilder) !! "__proto__") as [v |] eqn:E;
      [| reflexivity].
    exfalso.
    exact (proj1 (proj1 (proj2 (proj2 (build_client_shape protoBuilder)))
                    "__proto__" (ex_intro _ v E)) eq_refl).
Defined.

(** Against C10 as stated: with a resource named [_manifest], the property
    [_manifest] of the client is that resource, not the manifest. *)
Lemma manifest_property_counterexample :
  ~ (forall this : Builder,
       build this !! "_manifest" = Some (ManifestRef (manifest this))).
Proof.
  intros Hclaim. specialize (Hclaim shadowBuilder).
  unfold lookup, client_lookup, getProperty, build in Hclaim.
  simpl in Hclaim. unfold setProperty in Hclaim. simpl in Hclaim.
  rewrite lookup_insert_eq in Hclaim. discriminate.
Qed.

(** ** What the executor does where the tests expect otherwise *)

(** C2.  [chainResponsePhase] calls [middleware.response(next)]: whatever
    the hook, its second parameter is [undefined].  A hook that calls
    [renew()] on the first run therefore makes the call reject with a
    [TypeError] after that one run; nothing is re-run. *)
Theorem renew_not_passed_to_response_hook :
  (forall (next : Promise Response) (rq : option (Request -> Async Request))
          (hook : ResponseHook),
      chainResponsePhase next (mkMiddleware rq (Some hook)) = hook next None)
  /\ invokeMiddlewares (demoBuilder [renewUntil 2]) "User" "byId" "r" w0
     = (Rejected (Js.TypeError "renew is not a function"), mkWorld 1 [] []).
Proof.
  split; [intros next rq hook |]; reflexivity.
Qed.

(** C3.  [invokeMiddlewares] keeps no execution counter and never reads
    [maxMiddlewareStackExecutionAllowed]: on the hook of the test
    "prevents renew to cause infinite loops" (with the identity as
    [request]) the stack runs once, the hook's counter is 1, and the call
    rejects with the [TypeError] of calling [undefined], not with the loop
    guard's [Error] after three runs. *)
Theorem loop_guard_absent_at_renewing_hook :
  invokeMiddlewares (demoBuilder [renewUntil 5]) "User" "byId" "r" w0
    = (Rejected (Js.TypeError "renew is not a function"), mkWorld 1 [] [])
  /\ maxMiddlewareStackExecutionAllowed demoConfigs = 2%Z.
Proof.
  split; reflexivity.
Qed.

(** ** Further properties, on concrete inputs *)

Lemma invokeMiddlewares_pipeline_witness :
  invokeMiddlewares (demoBuilder [countingRequest; countingRequest])
    "User" "byId" "r" w0
    = (Resolved "200 r++", mkWorld 2 [] ["r++"]).
Proof.
  refine (eq_trans
            (invokeMiddlewares_pipeline
               (demoBuilder [countingRequest; countingRequest])
               "User" "byId" "r" w0
               [fun req s => (Resolved (req ++ "+")%string, S s);
                fun req s => (Resolved (req ++ "+")%string, S s)] _ _) _).
  - repeat constructor.
  - intros m Hm. exists justNext.
    split; [| intros next w'; reflexivity].
    apply list_elem_of_In in Hm. simpl in Hm.
    destruct Hm as [<- | [<- | []]]; reflexivity.
  - reflexivity.
Defined.

Lemma invokeMiddlewares_empty_list_witness :
  invokeMiddlewares (demoBuilder []) "User" "byId" "r" w0
    = (Resolved "200 r", mkWorld 0 [] ["r"]).
Proof.
  exact (invokeMiddlewares_empty_list (demoBuilder []) "User" "byId" "r" w0
           echoGateway eq_refl eq_refl).
Defined.

Lemma execute_afterNext_order_witness :
  execute (demoBuilder []) [postMiddleware "a"; postMiddleware "b"] "r" w0
    = (Resolved "200 rab", mkWorld 0 [] ["r"]).
Proof.
  refine (eq_trans
            (execute_afterNext_order (demoBuilder [])
               [postMiddleware "a"; postMiddleware "b"]
               [appendPost "a"; appendPost "b"] "r" w0 _) _).
  - repeat constructor.
  - reflexivity.
Defined.

Lemma invokeMiddlewares_next_not_called_witness :
  invokeMiddlewares (demoBuilder [recorder 0; cachedMiddleware; bothHooks])
    "User" "byId" "r" w0
    = (Resolved "cached", w0).
Proof.
  refine (proj1 (invokeMiddlewares_next_not_called
                   (demoBuilder [recorder 0; cachedMiddleware; bothHooks])
                   "User" "byId" "r" "r" w0 w0
                   [recorder 0] [bothHooks] cachedMiddleware cachedBody _ _ _ _)).
  - reflexivity.
  - intros m Hm. exists justNext.
    split; [| intros next w'; reflexivity].
    apply list_elem_of_In in Hm. simpl in Hm.
    destruct Hm as [<- | []]; reflexivity.
  - reflexivity.
  - reflexivity.
Defined.

Lemma invokeMiddlewares_next_twice_witness :
  invokeMiddlewares (demoBuilder [bothHooks; twiceMiddleware])
    "User" "byId" "r" w0
    = (Resolved "200 r", mkWorld 0 [] ["r"; "r"]).
Proof.
  refine (invokeMiddlewares_next_twice
            (demoBuilder [bothHooks; twiceMiddleware])
            "User" "byId" "r" "r" w0 w0 [bothHooks] twiceMiddleware
            echoGateway "200 r" 0 _ _ _ _ _ _).
  - reflexivity.
  - intros m Hm. exists justNext.
    split; [| intros next w'; reflexivity].
    apply list_elem_of_In in Hm. simpl in Hm.
    destruct Hm as [<- | []]; reflexivity.
  - reflexivity.
  - reflexivity.
  - reflexivity.
  - reflexivity.
Defined.

Lemma transparent_middleware_noop_witness :
  invokeMiddlewares
    (withMiddleware (demoBuilder []) [countingRequest; bothHooks; recorder 0])
    "User" "byId" "r" w0
  = invokeMiddlewares
      (withMiddleware (demoBuilder []) [countingRequest; recorder 0])
      "User" "byId" "r" w0.
Proof.
  refine (transparent_middleware_noop (demoBuilder []) "User" "byId" "r" w0
            [countingRequest] [recorder 0] bothHooks _).
  split; reflexivity.
Defined.

Lemma invokeMiddlewares_gateway_not_a_class_witness :
  invokeMiddlewares (unsetBuilder [countingRequest]) "User" "byId" "r" w0
    = (Rejected (Js.TypeError "GatewayClass is not a constructor"),
       mkWorld 1 [] []).
Proof.
  refine (proj1 (invokeMiddlewares_gateway_not_a_class
                   (unsetBuilder [countingRequest]) "User" "byId" "r" "r+"
                   w0 (mkWorld 1 [] []) _ _ _)).
  - intros cls. discriminate.
  - intros m Hm. exists justNext.
    split; [| intros next w'; reflexivity].
    apply list_elem_of_In in Hm. simpl in Hm.
    destruct Hm as [<- | []]; reflexivity.
  - reflexivity.
Defined.

Lemma build_method_lookup_witness :
  build (demoBuilder []) !! "User"
    = Some (Resource
              (buildResource (demoBuilder []) "User"
                 [mkMethod "byId" "/users/{id}"; mkMethod "all" "/users"]))
  /\ buildResource (demoBuilder []) "User"
       [mkMethod "byId" "/users/{id}"; mkMethod "all" "/users"] !! "byId"
     = Some (fun requestParams =>
               invokeMiddlewares (demoBuilder []) "User" "byId"
                 (newRequest "/users/{id}" requestParams)).
Proof.
  refine (build_method_lookup (demoBuilder []) "User"
            [mkMethod "byId" "/users/{id}"; mkMethod "all" "/users"]
            (mkMethod "byId" "/users/{id}") _ _ _ _).
  - simpl. apply NoDup_singleton.
  - apply list_elem_of_In. simpl. left. reflexivity.
  - simpl. apply NoDup_cons. split; [| apply NoDup_singleton].
    intros Hin. apply list_elem_of_singleton in Hin. discriminate.
  - apply list_elem_of_In. simpl. left. reflexivity.
Defined.

(** ** Middleware as the manifest creates it, on concrete inputs *)

Lemma hookless_middleware_is_noop_witness :
  invokeMiddlewares (factoryBuilder [fun _ => noHooks]) "User" "byId" "r" w0
    = (Resolved "200 r", mkWorld 0 [] ["r"])
  /\ invokeMiddlewares
       (factoryBuilder [fun _ => countingRequest; fun _ => noHooks])
       "User" "byId" "r" w0
     = (Resolved "200 r+", mkWorld 1 [] ["r+"]).
Proof.
  split.
  - refine (eq_trans
              (proj2 (proj2 (hookless_middleware_is_noop
                               (factoryBuilder [fun _ => noHooks])
                               "User" "byId" [] [] (fun _ => noHooks) ∅ None
                               _ _ _))
                     "r" w0) _);
      reflexivity.
  - refine (eq_trans
              (proj2 (proj2 (hookless_middleware_is_noop
                               (factoryBuilder
                                  [fun _ => countingRequest; fun _ => noHooks])
                               "User" "byId" [fun _ => countingRequest] []
                               (fun _ => noHooks) ∅ None _ _ _))
                     "r" w0) _);
      reflexivity.
Defined.

Lemma request_phase_is_sequential_fold_witness :
  invokeMiddlewares
    (factoryBuilder
       [fun _ => countingRequest; fun _ => onlyResponse; fun _ => countingRequest])
    "User" "byId" "r" w0
    = (Resolved "200 r++", mkWorld 2 [] ["r++"]).
Proof.
  refine (eq_trans
            (proj1 (proj2 (request_phase_is_sequential_fold
                             (factoryBuilder
                                [fun _ => countingRequest; fun _ => onlyResponse;
                                 fun _ => countingRequest])
                             "User" "byId"
                             [fun _ => countingRequest; fun _ => onlyResponse;
                              fun _ => countingRequest]
                             ∅ None "r" w0 _))) _);
    reflexivity.
Defined.

Lemma no_response_hooks_one_gateway_call_witness :
  invokeMiddlewares
    (factoryBuilder [fun _ => onlyRequest; fun _ => noHooks])
    "User" "byId" "r" w0
    = (Resolved "200 r", mkWorld 0 [] ["r"])
  /\ invokeMiddlewares
       (factoryBuilder [fun _ => recorder 0; fun _ => cachedOnly; fun _ => noHooks])
       "User" "byId" "r" w0
     = (Resolved "cached", w0).
Proof.
  split.
  - refine (eq_trans
              (proj1 (no_response_hooks_one_gateway_call
                        (factoryBuilder [fun _ => onlyRequest; fun _ => noHooks])
                        "User" "byId" ∅ None "r" w0)
                     [fun _ => onlyRequest; fun _ => noHooks] echoGateway _ _ _) _).
    + reflexivity.
    + intros factory Hin. apply list_elem_of_In in Hin. simpl in Hin.
      destruct Hin as [<- | [<- | []]]; reflexivity.
    + reflexivity.
    + reflexivity.
  - refine (proj2 (no_response_hooks_one_gateway_call
                     (factoryBuilder
                        [fun _ => recorder 0; fun _ => cachedOnly; fun _ => noHooks])
                     "User" "byId" ∅ None "r" w0)
                  [fun _ => recorder 0] [fun _ => noHooks] (fun _ => cachedOnly)
                  cachedBody "r" 0 0 "cached" _ _ _ _ _).
    + reflexivity.
    + reflexivity.
    + intros f Hin. apply list_elem_of_In in Hin. simpl in Hin.
      destruct Hin as [<- | []]. apply withDefaultHooks_forwards. reflexivity.
    + reflexivity.
    + reflexivity.
Defined.
